(** * PlayerController: a shallow embedding of src/unnamed/part_000

    The controller keeps a record of six held-key flags, updated by the
    key-down / key-up handlers registered on the window, and once per frame
    ([update]) converts that snapshot into calls on the controlled pawn.

    Numbers: the direction accumulator of [handleMovement] only ever holds
    the integers -1, 0 and 1 (sums of +1 / -1 starting at 0, exact in IEEE
    doubles), so it is modelled over [Z]; speeds, delta times and the
    normalised direction are real numbers. *)

From Stdlib Require Import ZArith Reals Lra Lia String List Bool.
Import ListNotations.

(** ** Vector3D (src/Core/Vector, not part of src/) *)

Module Vector.

Record Vector3D := mkVector3D { x : R; y : R; z : R }.

(** Modelled from the spec: the Euclidean length of a [Vector3D]
    (the class lives in ../Core/Vector, which is missing from src/). *)
Definition length (v : Vector3D) : R :=
  sqrt (x v * x v + y v * y v + z v * z v).

(** Modelled from the spec: [Vector3D.normalize] "normalize it to unit
    length": every component is divided by the length. *)
Definition normalize (v : Vector3D) : Vector3D :=
  let l := length v in mkVector3D (x v / l) (y v / l) (z v / l).

End Vector.

(** ** The controlled pawn (src/Core/Player, not part of src/)

    Only the capabilities the controller calls are modelled, as an
    interface over an abstract pawn state [P] and hit result [H]: each
    query reads the current state, each command may change it. *)

Module Player.

Class Player (P H : Type) := {
  isOnGround : P -> bool;
  canJump : P -> bool;
  jump : P -> P;
  canShoot : P -> bool;
  shoot : P -> P * option H;
  move : P -> Vector.Vector3D -> R -> R -> P
}.

End Player.

(** ** Input state *)

Module Input.

Record PlayerInputState := mkInputState {
  forward : bool; backward : bool; left : bool; right : bool;
  jump : bool; shoot : bool
}.

Definition initial : PlayerInputState :=
  mkInputState false false false false false false.

(** [private onKeyDown(event)]: the switch on [event.code]. *)
Definition onKeyDown (code : string) (s : PlayerInputState) : PlayerInputState :=
  let '(mkInputState f b l r j sh) := s in
  if (code =? "KeyW")%string || (code =? "ArrowUp")%string
  then mkInputState true b l r j sh
  else if (code =? "KeyS")%string || (code =? "ArrowDown")%string
  then mkInputState f true l r j sh
  else if (code =? "KeyA")%string || (code =? "ArrowLeft")%string
  then mkInputState f b true r j sh
  else if (code =? "KeyD")%string || (code =? "ArrowRight")%string
  then mkInputState f b l true j sh
  else if (code =? "Space")%string
  then mkInputState f b l r true sh
  else if (code =? "Mouse0")%string || (code =? "Enter")%string
  then mkInputState f b l r j true
  else s.

(** [private onKeyUp(event)]: the same switch, clearing the flag. *)
Definition onKeyUp (code : string) (s : PlayerInputState) : PlayerInputState :=
  let '(mkInputState f b l r j sh) := s in
  if (code =? "KeyW")%string || (code =? "ArrowUp")%string
  then mkInputState false b l r j sh
  else if (code =? "KeyS")%string || (code =? "ArrowDown")%string
  then mkInputState f false l r j sh
  else if (code =? "KeyA")%string || (code =? "ArrowLeft")%string
  then mkInputState f b false r j sh
  else if (code =? "KeyD")%string || (code =? "ArrowRight")%string
  then mkInputState f b l false j sh
  else if (code =? "Space")%string
  then mkInputState f b l r false sh
  else if (code =? "Mouse0")%string || (code =? "Enter")%string
  then mkInputState f b l r j false
  else s.

(** The logical actions of the fixed key table, for stating properties. *)
Inductive Action := AForward | ABackward | ALeft | ARight | AJump | AShoot.

Definition flag (a : Action) (s : PlayerInputState) : bool :=
  match a with
  | AForward => forward s | ABackward => backward s
  | ALeft => left s | ARight => right s
  | AJump => jump s | AShoot => shoot s
  end.

Local Open Scope string_scope.

(** The key-to-action table of the spec (section 4.1), as data. *)
Definition keyTable : list (string * Action) :=
  [("KeyW", AForward); ("ArrowUp", AForward);
   ("KeyS", ABackward); ("ArrowDown", ABackward);
   ("KeyA", ALeft); ("ArrowLeft", ALeft);
   ("KeyD", ARight); ("ArrowRight", ARight);
   ("Space", AJump);
   ("Mouse0", AShoot); ("Enter", AShoot)].

Definition boundAction (code : string) : option Action :=
  option_map snd (find (fun kv => (code =? fst kv)%string) keyTable).

Definition setFlag (a : Action) (v : bool) (s : PlayerInputState)
  : PlayerInputState :=
  let '(mkInputState f b l r j sh) := s in
  match a with
  | AForward => mkInputState v b l r j sh
  | ABackward => mkInputState f v l r j sh
  | ALeft => mkInputState f b v r j sh
  | ARight => mkInputState f b l v j sh
  | AJump => mkInputState f b l r v sh
  | AShoot => mkInputState f b l r j v
  end.

End Input.

(** ** Calls the controller makes to its collaborators, in order *)

Inductive Call :=
  | CIsOnGround
  | CCanJump
  | CJump
  | CCanShoot
  | CShoot
  | CMove (direction : Vector.Vector3D) (speed dt : R)
  | CNormalize (v : Vector.Vector3D).

(** ** A small state-and-log monad

    A computation reads and updates the controller (whose
    [controlledPawn] field holds the pawn's current state) and logs the
    calls it makes. *)

Definition M (S A : Type) : Type := S -> A * S * list Call.

Definition ret {S A} (a : A) : M S A := fun s => (a, s, []).

Definition bind {S A B} (m : M S A) (k : A -> M S B) : M S B :=
  fun s => let '(a, s1, t1) := m s in
           let '(b, s2, t2) := k a s1 in (b, s2, t1 ++ t2).

Notation "x <- m ;; k" := (bind m (fun x => k))
  (at level 61, m at next level, right associativity).
Notation "m ;;; k" := (bind m (fun _ => k))
  (at level 61, right associativity).

Definition get {S} : M S S := fun s => (s, s, []).

(** ** The controller *)

Record PlayerController (P : Type) := mkController {
  controlledPawn : P;
  moveSpeed : R;
  airControlModifier : R;
  inputState : Input.PlayerInputState
}.
Arguments mkController {P}.
Arguments controlledPawn {P}.
Arguments moveSpeed {P}.
Arguments airControlModifier {P}.
Arguments inputState {P}.

(** [constructor]: field initialisers [moveSpeed = 5.0],
    [airControlModifier = 0.5], all flags false. *)
Definition construct {P} (controlledPlayer : P) : PlayerController P :=
  mkController controlledPlayer 5 (1 / 2) Input.initial.

(** The direction accumulator [moveDirection] of [handleMovement]. *)
Record Dir := mkDir { dx : Z; dy : Z; dz : Z }.

Definition toVector3D (d : Dir) : Vector.Vector3D :=
  Vector.mkVector3D (IZR (dx d)) (IZR (dy d)) (IZR (dz d)).

(** Lines 104-109 of [handleMovement]. *)
Definition accumulate (s : Input.PlayerInputState) : Dir :=
  let d0 := mkDir 0 0 0 in
  let d1 := if Input.forward s then mkDir (dx d0) (dy d0) (dz d0 + 1) else d0 in
  let d2 := if Input.backward s then mkDir (dx d1) (dy d1) (dz d1 - 1) else d1 in
  let d3 := if Input.right s then mkDir (dx d2 + 1) (dy d2) (dz d2) else d2 in
  let d4 := if Input.left s then mkDir (dx d3 - 1) (dy d3) (dz d3) else d3 in
  d4.

(** The guard [moveDirection.x !== 0 || moveDirection.z !== 0]. *)
Definition hasInput (d : Dir) : bool :=
  negb (dx d =? 0)%Z || negb (dz d =? 0)%Z.

(** The per-frame movement intent: the direction after the conditional
    normalisation of lines 112-114. *)
Definition movementIntent (s : Input.PlayerInputState) : Vector.Vector3D :=
  let d := accumulate s in
  if hasInput d then Vector.normalize (toVector3D d) else toVector3D d.

Section Controller.

Context {P H : Type} `{Player.Player P H}.

Local Abbreviation CM := (M (PlayerController P)).

Definition setPawn (c : PlayerController P) (p : P) : PlayerController P :=
  mkController p (moveSpeed c) (airControlModifier c) (inputState c).

Definition setInput (c : PlayerController P) (s : Input.PlayerInputState)
  : PlayerController P :=
  mkController (controlledPawn c) (moveSpeed c) (airControlModifier c) s.

Definition modifyInput (f : Input.PlayerInputState -> Input.PlayerInputState)
  : CM unit := fun c => (tt, setInput c (f (inputState c)), []).

(** Calls on [this.controlledPawn]. *)
Definition pawnQuery (q : P -> bool) (ev : Call) : CM bool :=
  fun c => (q (controlledPawn c), c, [ev]).

Definition pawnJump : CM unit :=
  fun c => (tt, setPawn c (Player.jump (controlledPawn c)), [CJump]).

Definition pawnShoot : CM (option H) :=
  fun c => let '(p', r) := Player.shoot (controlledPawn c) in
           (r, setPawn c p', [CShoot]).

Definition pawnMove (d : Vector.Vector3D) (speed dt : R) : CM unit :=
  fun c => (tt, setPawn c (Player.move (controlledPawn c) d speed dt),
            [CMove d speed dt]).

Definition normalizeCall (v : Vector.Vector3D) : CM Vector.Vector3D :=
  fun c => (Vector.normalize v, c, [CNormalize v]).

(** [moveForward()] ... [moveRight()]. *)
Definition moveForward : CM unit :=
  modifyInput (fun s => Input.mkInputState true (Input.backward s)
    (Input.left s) (Input.right s) (Input.jump s) (Input.shoot s)).
Definition moveBackward : CM unit :=
  modifyInput (fun s => Input.mkInputState (Input.forward s) true
    (Input.left s) (Input.right s) (Input.jump s) (Input.shoot s)).
Definition moveLeft : CM unit :=
  modifyInput (fun s => Input.mkInputState (Input.forward s) (Input.backward s)
    true (Input.right s) (Input.jump s) (Input.shoot s)).
Definition moveRight : CM unit :=
  modifyInput (fun s => Input.mkInputState (Input.forward s) (Input.backward s)
    (Input.left s) true (Input.jump s) (Input.shoot s)).

(** [jump()]. *)
Definition jump : CM bool :=
  b <- pawnQuery Player.canJump CCanJump ;;
  if b then pawnJump ;;; ret true else ret false.

(** [shoot()]. *)
Definition shoot : CM (option H) :=
  b <- pawnQuery Player.canShoot CCanShoot ;;
  if b then pawnShoot else ret None.

(** [private handleMovement(dt)]. *)
Definition handleMovement (dt : R) : CM unit :=
  c <- get ;;
  let moveDirection := accumulate (inputState c) in
  if hasInput moveDirection then
    v <- normalizeCall (toVector3D moveDirection) ;;
    g <- pawnQuery Player.isOnGround CIsOnGround ;;
    c' <- get ;;
    let currentSpeed :=
      if g then moveSpeed c' else (moveSpeed c' * airControlModifier c')%R in
    pawnMove v currentSpeed dt
  else ret tt.

(** [private handleActions()]. *)
Definition handleActions : CM unit :=
  c <- get ;;
  (if Input.jump (inputState c) then jump ;;; ret tt else ret tt) ;;;
  c' <- get ;;
  if Input.shoot (inputState c') then shoot ;;; ret tt else ret tt.

(** [update(dt)]. *)
Definition update (dt : R) : CM unit :=
  handleMovement dt ;;; handleActions.

(** [n] consecutive [update(dt)] calls, as the game loop makes them. *)
Fixpoint frames (dt : R) (n : nat) : CM unit :=
  match n with
  | O => ret tt
  | S n' => update dt ;;; frames dt n'
  end.

End Controller.

(** Observers of a computation's outcome. *)
Definition result {S A} (m : M S A) (s : S) : A := fst (fst (m s)).
Definition final {S A} (m : M S A) (s : S) : S := snd (fst (m s)).
Definition trace {S A} (m : M S A) (s : S) : list Call := snd (m s).

Definition count (p : Call -> bool) (t : list Call) : nat :=
  length (filter p t).

Definition isMove (e : Call) : bool :=
  match e with CMove _ _ _ => true | _ => false end.
Definition isCanJump (e : Call) : bool :=
  match e with CCanJump => true | _ => false end.
Definition isJump (e : Call) : bool :=
  match e with CJump => true | _ => false end.
Definition isCanShoot (e : Call) : bool :=
  match e with CCanShoot => true | _ => false end.
Definition isShoot (e : Call) : bool :=
  match e with CShoot => true | _ => false end.

(** The per-axis contribution of a pair of opposite keys, as the spec
    words it: +1 for the positive key, -1 for the negative one. *)
Definition axis (pos neg : bool) : Z :=
  ((if pos then 1 else 0) + (if neg then -1 else 0))%Z.

(** ** Window-level key listeners

    [startListening] / [stopListening] register and remove the two bound
    handlers [onKeyDownHandler] / [onKeyUpHandler], created once in the
    constructor, so removal is given the very references that were added.
    As in the DOM, adding a (type, listener) pair already present does
    nothing and removing it drops it. *)

Module Window.

Inductive Handler := OnKeyDownHandler | OnKeyUpHandler.

Definition handler_eqb (h1 h2 : Handler) : bool :=
  match h1, h2 with
  | OnKeyDownHandler, OnKeyDownHandler | OnKeyUpHandler, OnKeyUpHandler => true
  | _, _ => false
  end.

Definition Listeners := list (string * Handler).

Definition same (ty : string) (h : Handler) (l : string * Handler) : bool :=
  (fst l =? ty)%string && handler_eqb (snd l) h.

Definition addEventListener (ty : string) (h : Handler) (w : Listeners)
  : Listeners :=
  if existsb (same ty h) w then w else w ++ [(ty, h)].

Definition removeEventListener (ty : string) (h : Handler) (w : Listeners)
  : Listeners :=
  filter (fun l => negb (same ty h l)) w.

(** [private startListening()]. *)
Definition startListening (w : Listeners) : Listeners :=
  addEventListener "keyup" OnKeyUpHandler
    (addEventListener "keydown" OnKeyDownHandler w).

(** [private stopListening()]. *)
Definition stopListening (w : Listeners) : Listeners :=
  removeEventListener "keyup" OnKeyUpHandler
    (removeEventListener "keydown" OnKeyDownHandler w).

(** [destroy()]. *)
Definition destroy (w : Listeners) : Listeners := stopListening w.

Definition runHandler (h : Handler) : string -> Input.PlayerInputState ->
  Input.PlayerInputState :=
  match h with
  | OnKeyDownHandler => Input.onKeyDown
  | OnKeyUpHandler => Input.onKeyUp
  end.

(** A key event delivered by the window: its type and [event.code]. *)
Record KeyEvent := mkKeyEvent { type : string; code : string }.

(** Dispatch: every registered listener of the event's type runs, in
    registration order, on the controller's input state. *)
Definition dispatch (w : Listeners) (e : KeyEvent)
  (s : Input.PlayerInputState) : Input.PlayerInputState :=
  fold_left (fun s l => if (fst l =? type e)%string
                        then runHandler (snd l) (code e) s else s) w s.

Definition deliver (w : Listeners) (es : list KeyEvent)
  (s : Input.PlayerInputState) : Input.PlayerInputState :=
  fold_left (fun s e => dispatch w e s) es s.

(** Listener lists the controller can leave behind: it starts with none
    of its own, and only [startListening] (in the constructor) and
    [stopListening] (in [destroy]) touch them. *)
Inductive reachable : Listeners -> Prop :=
  | reach_nil : reachable []
  | reach_start w : reachable w -> reachable (startListening w)
  | reach_stop w : reachable w -> reachable (stopListening w).

Definition Action_eqb (a1 a2 : Input.Action) : bool :=
  match a1, a2 with
  | Input.AForward, Input.AForward | Input.ABackward, Input.ABackward
  | Input.ALeft, Input.ALeft | Input.ARight, Input.ARight
  | Input.AJump, Input.AJump | Input.AShoot, Input.AShoot => true
  | _, _ => false
  end.

(** What one key event says about action [a]: held after a key-down of a
    key bound to it, released after a key-up, nothing otherwise. *)
Definition effect (a : Input.Action) (e : KeyEvent) : option bool :=
  match Input.boundAction (code e) with
  | Some a' =>
      if Action_eqb a a' then
        if ("keydown" =? type e)%string then Some true
        else if ("keyup" =? type e)%string then Some false
        else None
      else None
  | None => None
  end.

(** The last thing a sequence of events says about [a], if anything. *)
Fixpoint lastBound (a : Input.Action) (es : list KeyEvent) : option bool :=
  match es with
  | [] => None
  | e :: es' =>
      match lastBound a es' with
      | Some v => Some v
      | None => effect a e
      end
  end.

End Window.

(** ** A concrete pawn, used to run the controller on examples *)

Module Toy.

(** The pawn state: on the ground?, jumps done, shots fired. *)
Record Pawn := mkPawn { grounded : bool; jumps : nat; shots : nat }.

#[global] Instance toyPlayer : Player.Player Pawn nat := {
  Player.isOnGround p := grounded p;
  Player.canJump p := grounded p;
  Player.jump p := mkPawn false (S (jumps p)) (shots p);
  Player.canShoot p := true;
  Player.shoot p := (mkPawn (grounded p) (jumps p) (S (shots p)), Some (shots p));
  Player.move p _ _ _ := p
}.

(** A pawn with no gate of its own: always able to jump and shoot. *)
Record Eager := mkEager { ejumps : nat; eshots : nat }.

#[global] Instance eagerPlayer : Player.Player Eager nat := {
  Player.isOnGround _ := true;
  Player.canJump _ := true;
  Player.jump p := mkEager (S (ejumps p)) (eshots p);
  Player.canShoot _ := true;
  Player.shoot p := (mkEager (ejumps p) (S (eshots p)), None);
  Player.move p _ _ _ := p
}.

End Toy.

(** * Proofs *)

Ltac unfold_ctl :=
  unfold result, final, trace, update, handleMovement, handleActions,
    jump, shoot, pawnQuery, pawnJump, pawnShoot, pawnMove, normalizeCall,
    moveForward, moveBackward, moveLeft, moveRight, modifyInput,
    setInput, setPawn, get, bind, ret in *.

(** Case split on every flag and every answer of the pawn. *)
Ltac split_pawn :=
  repeat match goal with
  | |- context [Player.shoot ?p] => destruct (Player.shoot p); cbn
  | |- context [if ?b then _ else _] => destruct b; cbn
  end.

Lemma accumulate_axes (s : Input.PlayerInputState) :
  accumulate s =
  mkDir (axis (Input.right s) (Input.left s)) 0
        (axis (Input.forward s) (Input.backward s)).
Proof.
  destruct s as [f b l r j sh].
  destruct f, b, l, r; reflexivity.
Qed.

Lemma update_no_move_without_input {P H} `{Player.Player P H}
  (c : PlayerController P) (dt : R) :
  hasInput (accumulate (inputState c)) = false ->
  count isMove (trace (update dt) c) = 0%nat.
Proof.
  destruct c as [p ms am s]; cbn [inputState]; intros Hn.
  unfold_ctl. cbn [inputState]. rewrite Hn.
  destruct s as [f b l r j sh]; cbn; split_pawn; reflexivity.
Qed.

(** C1. Before normalisation the direction is the sum of the per-axis
    contributions (+1 forward / -1 backward on z, +1 right / -1 left on x);
    opposite keys held together cancel on their axis; and when the
    resulting vector is zero (in particular forward+backward and
    left+right held together) [update] issues no move command. *)
Theorem direction_is_axis_sum {P H} `{Player.Player P H}
  (c : PlayerController P) (dt : R) :
  let s := inputState c in
  accumulate s = mkDir (axis (Input.right s) (Input.left s)) 0
                       (axis (Input.forward s) (Input.backward s)) /\
  (Input.forward s = true -> Input.backward s = true ->
     dz (accumulate s) = 0%Z) /\
  (Input.right s = true -> Input.left s = true ->
     dx (accumulate s) = 0%Z) /\
  (dx (accumulate s) = 0%Z -> dz (accumulate s) = 0%Z ->
     count isMove (trace (update dt) c) = 0%nat) /\
  (Input.forward s = Input.backward s -> Input.right s = Input.left s ->
     count isMove (trace (update dt) c) = 0%nat).
Proof.
  cbv zeta. rewrite accumulate_axes. cbn [dx dz].
  repeat split.
  - intros -> ->; reflexivity.
  - intros -> ->; reflexivity.
  - intros Hx Hz. apply update_no_move_without_input.
    rewrite accumulate_axes; unfold hasInput; cbn [dx dz]; rewrite Hx, Hz.
    reflexivity.
  - intros Hfb Hrl. apply update_no_move_without_input.
    rewrite accumulate_axes, Hfb, Hrl; unfold hasInput, axis; cbn [dx dz].
    destruct (Input.backward _), (Input.left _); reflexivity.
Qed.

(** C2. One [update] call issues at most one move, one jump and one shot;
    it makes exactly one jump attempt when [jump] is held and none
    otherwise, likewise for [shoot]; and it leaves the input state, the
    speed and the air-control modifier as they were. *)
Theorem update_one_of_each {P H} `{Player.Player P H}
  (c : PlayerController P) (dt : R) :
  let t := trace (update dt) c in
  let c' := final (update dt) c in
  (count isMove t <= 1)%nat /\
  (count isJump t <= 1)%nat /\
  (count isShoot t <= 1)%nat /\
  count isCanJump t = (if Input.jump (inputState c) then 1 else 0)%nat /\
  count isCanShoot t = (if Input.shoot (inputState c) then 1 else 0)%nat /\
  inputState c' = inputState c /\
  moveSpeed c' = moveSpeed c /\
  airControlModifier c' = airControlModifier c.
Proof.
  destruct c as [p ms am [f b l r j sh]]; cbv zeta.
  unfold_ctl; cbn.
  destruct f, b, l, r, j, sh; cbn; split_pawn; cbn;
    repeat split; auto; lia.
Qed.

(** C3. [jump()] and [shoot()] only delegate to the pawn's eligibility
    gates: [jump()] returns [canJump()] and issues exactly one jump when it
    holds and none otherwise; [shoot()] returns the pawn's shot result when
    [canShoot()] holds and [None] (TS [undefined]) with no shot otherwise;
    neither touches the controller's own fields. *)
Theorem jump_shoot_delegate {P H} `{Player.Player P H}
  (c : PlayerController P) :
  let p := controlledPawn c in
  (result jump c = Player.canJump p /\
   trace jump c = (if Player.canJump p then [CCanJump; CJump] else [CCanJump]) /\
   final jump c = (if Player.canJump p then setPawn c (Player.jump p) else c)) /\
  (result shoot c = (if Player.canShoot p then snd (Player.shoot p) else None) /\
   trace shoot c = (if Player.canShoot p then [CCanShoot; CShoot] else [CCanShoot]) /\
   final shoot c = (if Player.canShoot p
                    then setPawn c (fst (Player.shoot p)) else c)).
Proof.
  cbv zeta. unfold result, final, trace, jump, shoot, pawnQuery, pawnJump,
    pawnShoot, bind, ret.
  destruct (Player.canJump (controlledPawn c)), (Player.canShoot (controlledPawn c));
    cbn; try destruct (Player.shoot (controlledPawn c)); cbn;
    repeat split.
Qed.

(** C8. The manual setters [moveForward()] ... [moveRight()] set their own
    flag to true whatever it was, leave every other flag, the pawn, the
    speed and the air-control modifier untouched, and call nothing. *)
Theorem manual_setters_only_set {P H} `{Player.Player P H}
  (c : PlayerController P) :
  let s := inputState c in
  final moveForward c = setInput c (Input.mkInputState true
      (Input.backward s) (Input.left s) (Input.right s) (Input.jump s) (Input.shoot s)) /\
  final moveBackward c = setInput c (Input.mkInputState (Input.forward s)
      true (Input.left s) (Input.right s) (Input.jump s) (Input.shoot s)) /\
  final moveLeft c = setInput c (Input.mkInputState (Input.forward s)
      (Input.backward s) true (Input.right s) (Input.jump s) (Input.shoot s)) /\
  final moveRight c = setInput c (Input.mkInputState (Input.forward s)
      (Input.backward s) (Input.left s) true (Input.jump s) (Input.shoot s)) /\
  trace moveForward c = [] /\ trace moveBackward c = [] /\
  trace moveLeft c = [] /\ trace moveRight c = [] /\
  Input.forward (inputState (final moveForward c)) = true /\
  Input.backward (inputState (final moveBackward c)) = true /\
  Input.left (inputState (final moveLeft c)) = true /\
  Input.right (inputState (final moveRight c)) = true.
Proof.
  destruct c as [p ms am [f b l r j sh]]. repeat split.
Qed.

Ltac invert_in :=
  let Hin := fresh "Hin" in
  intros Hin; repeat destruct Hin as [Hin|Hin];
  try discriminate; try contradiction;
  injection Hin; intros; subst; repeat split; reflexivity.

(** The only move command an [update] can issue. *)
Lemma update_move_inv {P H} `{Player.Player P H}
  (c : PlayerController P) (dt : R) d sp dt' :
  In (CMove d sp dt') (trace (update dt) c) ->
  hasInput (accumulate (inputState c)) = true /\
  d = Vector.normalize (toVector3D (accumulate (inputState c))) /\
  sp = (if Player.isOnGround (controlledPawn c) then moveSpeed c
        else (moveSpeed c * airControlModifier c)%R) /\
  dt' = dt.
Proof.
  destruct c as [p ms am [f b l r j sh]]. unfold_ctl; cbn.
  destruct f, b, l, r, j, sh; cbn; split_pawn; invert_in.
Qed.

(** The only normalisation an [update] can perform. *)
Lemma update_normalize_inv {P H} `{Player.Player P H}
  (c : PlayerController P) (dt : R) v :
  In (CNormalize v) (trace (update dt) c) ->
  hasInput (accumulate (inputState c)) = true /\
  v = toVector3D (accumulate (inputState c)).
Proof.
  destruct c as [p ms am [f b l r j sh]]. unfold_ctl; cbn.
  destruct f, b, l, r, j, sh; cbn; split_pawn; invert_in.
Qed.

Local Open Scope R_scope.

Lemma length_normalize (v : Vector.Vector3D) :
  0 < Vector.x v * Vector.x v + Vector.y v * Vector.y v + Vector.z v * Vector.z v ->
  Vector.length (Vector.normalize v) = 1.
Proof.
  destruct v as [a b e]; cbn; intros Hq.
  set (q := a * a + b * b + e * e) in *.
  unfold Vector.normalize; cbv zeta.
  replace (Vector.length (Vector.mkVector3D a b e)) with (sqrt q) by reflexivity.
  unfold Vector.length; cbn.
  assert (Hl : 0 < sqrt q) by (apply sqrt_lt_R0; exact Hq).
  assert (Hs : sqrt q * sqrt q = q) by (apply sqrt_sqrt; lra).
  assert (Hn : sqrt q <> 0) by (apply Rgt_not_eq; exact Hl).
  replace (a / sqrt q * (a / sqrt q) + b / sqrt q * (b / sqrt q)
           + e / sqrt q * (e / sqrt q)) with 1.
  - apply sqrt_1.
  - transitivity (q / (sqrt q * sqrt q)).
    + rewrite Hs. field. lra.
    + unfold q. field. exact Hn.
Qed.

Lemma sqr_sum_pos (d : Dir) :
  hasInput d = true ->
  0 < IZR (dx d) * IZR (dx d) + IZR (dy d) * IZR (dy d) + IZR (dz d) * IZR (dz d).
Proof.
  unfold hasInput; intros Hh.
  rewrite <- !mult_IZR, <- !plus_IZR. apply IZR_lt.
  apply orb_true_iff in Hh; destruct Hh as [Hh|Hh];
    apply negb_true_iff, Z.eqb_neq in Hh; nia.
Qed.

Lemma accumulate_dy (s : Input.PlayerInputState) : dy (accumulate s) = 0%Z.
Proof. rewrite accumulate_axes; reflexivity. Qed.

(** C4. The movement intent of every input state has length 1 when there
    is net directional input and 0 otherwise, and the direction of every
    move command [update] issues has length exactly 1, diagonal or not. *)
Theorem movement_intent_unit {P H} `{Player.Player P H}
  (c : PlayerController P) (dt : R) :
  let s := inputState c in
  Vector.length (movementIntent s) =
    (if hasInput (accumulate s) then 1 else 0) /\
  (Vector.length (movementIntent s) = 0 \/ Vector.length (movementIntent s) = 1) /\
  (forall d sp dt', In (CMove d sp dt') (trace (update dt) c) ->
     d = movementIntent s /\ Vector.length d = 1).
Proof.
  cbv zeta.
  assert (Hlen : Vector.length (movementIntent (inputState c)) =
                 (if hasInput (accumulate (inputState c)) then 1 else 0)).
  { unfold movementIntent.
    destruct (hasInput (accumulate (inputState c))) eqn:Hh.
    - apply length_normalize, sqr_sum_pos, Hh.
    - unfold hasInput in Hh. apply orb_false_iff in Hh as [Hx Hz].
      apply negb_false_iff, Z.eqb_eq in Hx, Hz.
      unfold Vector.length, toVector3D; cbn.
      rewrite Hx, Hz, accumulate_dy.
      replace (0 * 0 + 0 * 0 + 0 * 0) with 0 by ring. apply sqrt_0. }
  split; [exact Hlen | split].
  - rewrite Hlen. destruct (hasInput _); [right | left]; reflexivity.
  - intros d sp dt' Hin.
    destruct (update_move_inv c dt d sp dt' Hin) as (Hh & -> & _).
    unfold movementIntent. rewrite Hh. split; [reflexivity |].
    apply length_normalize, sqr_sum_pos, Hh.
Qed.

(** C10. Normalisation is applied only to a non-zero accumulated
    direction: every vector [update] normalises has [x <> 0] or [z <> 0]
    and a strictly positive length, so normalising a zero vector is
    unreachable. *)
Theorem normalize_only_nonzero {P H} `{Player.Player P H}
  (c : PlayerController P) (dt : R) (v : Vector.Vector3D) :
  In (CNormalize v) (trace (update dt) c) ->
  (Vector.x v <> 0 \/ Vector.z v <> 0) /\ 0 < Vector.length v.
Proof.
  intros Hin. destruct (update_normalize_inv c dt v Hin) as [Hh ->].
  split.
  - unfold hasInput in Hh; apply orb_true_iff in Hh.
    unfold toVector3D; cbn.
    destruct Hh as [Hh|Hh]; apply negb_true_iff, Z.eqb_neq in Hh;
      [left | right]; apply not_0_IZR; exact Hh.
  - unfold Vector.length. apply sqrt_lt_R0, sqr_sum_pos, Hh.
Qed.

(** C5. Every move command carries [moveSpeed] when the pawn reports
    [isOnGround()] and [moveSpeed * airControlModifier] otherwise; with
    [moveSpeed = 5] and [airControlModifier = 0.5] an airborne move has
    speed 2.5, and these are the defaults set at construction, the air
    factor being below 1. *)
Theorem move_speed_ground_or_air {P H} `{Player.Player P H}
  (c : PlayerController P) (dt : R) d sp dt' :
  In (CMove d sp dt') (trace (update dt) c) ->
  sp = (if Player.isOnGround (controlledPawn c) then moveSpeed c
        else moveSpeed c * airControlModifier c) /\
  (moveSpeed c = 5 -> airControlModifier c = 1 / 2 ->
   Player.isOnGround (controlledPawn c) = false -> sp = 5 / 2) /\
  (forall p : P, moveSpeed (construct p) = 5 /\
     airControlModifier (construct p) = 1 / 2 /\
     airControlModifier (construct p) < 1).
Proof.
  intros Hin. destruct (update_move_inv c dt d sp dt' Hin) as (_ & _ & Hsp & _).
  split; [exact Hsp | split].
  - intros Hms Ham Hg. rewrite Hsp, Hg, Hms, Ham. field.
  - intros p. cbn. split; [reflexivity | split; [reflexivity | lra]].
Qed.

(** C7. The [dt] of every move command is the [dt] given to [update];
    so [update 0] never commands a non-zero displacement
    [|direction| * speed * dt]. *)
Theorem update_passes_dt {P H} `{Player.Player P H}
  (c : PlayerController P) (dt : R) d sp dt' :
  In (CMove d sp dt') (trace (update dt) c) ->
  dt' = dt /\
  (dt = 0 -> sp * dt' = 0 /\ Vector.length d * sp * dt' = 0).
Proof.
  intros Hin. destruct (update_move_inv c dt d sp dt' Hin) as (_ & _ & _ & ->).
  split; [reflexivity |]. intros ->. split; ring.
Qed.

Ltac split_code code :=
  repeat match goal with
  | |- context [(code =? ?k)%string] =>
      let E := fresh "E" in
      destruct (code =? k)%string eqn:E;
      [apply String.eqb_eq in E; subst code; reflexivity | cbn]
  end.

Lemma onKeyDown_table (code : string) (s : Input.PlayerInputState) :
  Input.onKeyDown code s =
  match Input.boundAction code with
  | Some a => Input.setFlag a true s
  | None => s
  end.
Proof.
  destruct s as [f b l r j sh].
  unfold Input.onKeyDown, Input.boundAction, Input.keyTable; cbn.
  split_code code; reflexivity.
Qed.

Lemma onKeyUp_table (code : string) (s : Input.PlayerInputState) :
  Input.onKeyUp code s =
  match Input.boundAction code with
  | Some a => Input.setFlag a false s
  | None => s
  end.
Proof.
  destruct s as [f b l r j sh].
  unfold Input.onKeyUp, Input.boundAction, Input.keyTable; cbn.
  split_code code; reflexivity.
Qed.

(** C6. The key handlers follow the fixed key table: a bound key sets
    (down) or clears (up) its own flag and leaves the five others alone;
    both handlers are idempotent, a repeated event on an already set or
    cleared flag changes nothing, an unbound code changes nothing, and a
    down/up pair on one key leaves every other flag as it was. *)
Theorem key_handlers_follow_table (code : string) (s : Input.PlayerInputState) :
  Input.onKeyDown code s =
    match Input.boundAction code with
    | Some a => Input.setFlag a true s | None => s end /\
  Input.onKeyUp code s =
    match Input.boundAction code with
    | Some a => Input.setFlag a false s | None => s end /\
  (forall a, Input.boundAction code = Some a ->
     Input.flag a (Input.onKeyDown code s) = true /\
     Input.flag a (Input.onKeyUp code s) = false /\
     Input.flag a (Input.onKeyUp code (Input.onKeyDown code s)) = false) /\
  (forall a a', Input.boundAction code = Some a -> a' <> a ->
     Input.flag a' (Input.onKeyDown code s) = Input.flag a' s /\
     Input.flag a' (Input.onKeyUp code s) = Input.flag a' s) /\
  Input.onKeyDown code (Input.onKeyDown code s) = Input.onKeyDown code s /\
  Input.onKeyUp code (Input.onKeyUp code s) = Input.onKeyUp code s /\
  (forall a, Input.boundAction code = Some a -> Input.flag a s = true ->
     Input.onKeyDown code s = s) /\
  (forall a, Input.boundAction code = Some a -> Input.flag a s = false ->
     Input.onKeyUp code s = s) /\
  (Input.boundAction code = None ->
     Input.onKeyDown code s = s /\ Input.onKeyUp code s = s) /\
  (forall a', Input.boundAction code <> Some a' ->
     Input.flag a' (Input.onKeyUp code (Input.onKeyDown code s)) =
     Input.flag a' s).
Proof.
  rewrite !onKeyDown_table, !onKeyUp_table.
  destruct (Input.boundAction code) as [a|]; destruct s as [f b l r j sh];
    [destruct a|]; cbn;
    repeat split; intros;
    repeat match goal with x : Input.Action |- _ => destruct x end;
    cbn in *; try congruence; reflexivity.
Qed.

Definition ours (l : string * Window.Handler) : Prop :=
  l = ("keydown"%string, Window.OnKeyDownHandler) \/
  l = ("keyup"%string, Window.OnKeyUpHandler).

Lemma add_ours ty h w :
  Forall ours w -> ours (ty, h) -> Forall ours (Window.addEventListener ty h w).
Proof.
  intros Hw Hl. unfold Window.addEventListener.
  destruct (existsb _ w); [exact Hw |].
  apply Forall_app; split; [exact Hw | constructor; [exact Hl | constructor]].
Qed.

Lemma remove_ours ty h w :
  Forall ours w -> Forall ours (Window.removeEventListener ty h w).
Proof.
  intros Hw. unfold Window.removeEventListener.
  apply Forall_forall; intros l Hl. apply filter_In in Hl as [Hl _].
  rewrite Forall_forall in Hw. apply Hw, Hl.
Qed.

Lemma reachable_ours w : Window.reachable w -> Forall ours w.
Proof.
  induction 1 as [| w _ IH | w _ IH].
  - constructor.
  - unfold Window.startListening.
    apply add_ours; [apply add_ours; [exact IH|left; reflexivity] | right; reflexivity].
  - unfold Window.stopListening. apply remove_ours, remove_ours, IH.
Qed.

Lemma destroy_ours w : Forall ours w -> Window.destroy w = [].
Proof.
  induction 1 as [| l w Hl _ IH]; [reflexivity |].
  unfold Window.destroy, Window.stopListening, Window.removeEventListener in *.
  destruct Hl as [-> | ->]; cbn; exact IH.
Qed.

Lemma deliver_nil es s : Window.deliver [] es s = s.
Proof. induction es as [| e es IH]; [reflexivity | exact IH]. Qed.

(** C9. Once [destroy()] has run, the controller has no listener left on
    the window: any later sequence of key events leaves every flag as it
    was, so the next [update] issues exactly the calls it would have
    issued without those events. *)
Theorem destroy_detaches {P H} `{Player.Player P H}
  (w : Window.Listeners) (es : list Window.KeyEvent)
  (c : PlayerController P) (dt : R) :
  Window.reachable w ->
  Window.destroy w = [] /\
  Window.deliver (Window.destroy w) es (inputState c) = inputState c /\
  trace (update dt) (setInput c (Window.deliver (Window.destroy w) es (inputState c)))
  = trace (update dt) c.
Proof.
  intros Hw. pose proof (destroy_ours w (reachable_ours w Hw)) as Hd.
  rewrite Hd, deliver_nil. split; [reflexivity | split; [reflexivity |]].
  destruct c; reflexivity.
Qed.

(** While listening, key events do reach the handlers. *)
Example listening_delivers :
  Input.forward
    (Window.deliver (Window.startListening [])
       [Window.mkKeyEvent "keydown" "KeyW"] Input.initial) = true.
Proof. reflexivity. Qed.

(** ** Witnesses, on the toy pawn: airborne, forward held, default
    speeds (the controller right after [construct]). *)

Lemma move_speed_witness :
  In (CMove (Vector.normalize (Vector.mkVector3D 0 0 1)) (5 * (1 / 2)) 0)
     (trace (update 0)
        (setInput (construct (Toy.mkPawn false 0 0))
           (Input.mkInputState true false false false false false))) /\
  5 * (1 / 2) = (if false then 5 else 5 * (1 / 2)) /\ 5 * (1 / 2) = 5 / 2 /\
  airControlModifier (construct (Toy.mkPawn false 0 0)) < 1.
Proof.
  assert (Hin : In (CMove (Vector.normalize (Vector.mkVector3D 0 0 1)) (5 * (1 / 2)) 0)
     (trace (update 0)
        (setInput (construct (Toy.mkPawn false 0 0))
           (Input.mkInputState true false false false false false))))
    by (right; right; left; reflexivity).
  destruct (move_speed_ground_or_air _ _ _ _ _ Hin) as (Hsp & Hair & Hdef).
  split; [exact Hin | split; [exact Hsp | split]].
  - apply Hair; reflexivity.
  - apply (Hdef (Toy.mkPawn false 0 0)).
Defined.

Lemma update_passes_dt_witness :
  In (CMove (Vector.normalize (Vector.mkVector3D 0 0 1)) (5 * (1 / 2)) 0)
     (trace (update 0)
        (setInput (construct (Toy.mkPawn false 0 0))
           (Input.mkInputState true false false false false false))) /\
  (0 = 0 /\ (0 = 0 -> 5 * (1 / 2) * 0 = 0 /\
     Vector.length (Vector.normalize (Vector.mkVector3D 0 0 1)) * (5 * (1 / 2)) * 0 = 0)).
Proof.
  assert (Hin : In (CMove (Vector.normalize (Vector.mkVector3D 0 0 1)) (5 * (1 / 2)) 0)
     (trace (update 0)
        (setInput (construct (Toy.mkPawn false 0 0))
           (Input.mkInputState true false false false false false))))
    by (right; right; left; reflexivity).
  split; [exact Hin | exact (update_passes_dt _ _ _ _ _ Hin)].
Defined.

Lemma normalize_only_nonzero_witness :
  In (CNormalize (Vector.mkVector3D 0 0 1))
     (trace (update 0)
        (setInput (construct (Toy.mkPawn false 0 0))
           (Input.mkInputState true false false false false false))) /\
  ((0 <> 0 \/ 1 <> 0) /\ 0 < Vector.length (Vector.mkVector3D 0 0 1)).
Proof.
  assert (Hin : In (CNormalize (Vector.mkVector3D 0 0 1))
     (trace (update 0)
        (setInput (construct (Toy.mkPawn false 0 0))
           (Input.mkInputState true false false false false false))))
    by (left; reflexivity).
  split; [exact Hin | exact (normalize_only_nonzero _ _ _ Hin)].
Defined.

Lemma destroy_detaches_witness :
  Window.reachable (Window.startListening []) /\
  (Window.destroy (Window.startListening []) = [] /\
   Window.deliver (Window.destroy (Window.startListening []))
     [Window.mkKeyEvent "keydown" "KeyW"]
     (inputState (construct (Toy.mkPawn true 0 0))) =
   inputState (construct (Toy.mkPawn true 0 0)) /\
   trace (update 0)
     (setInput (construct (Toy.mkPawn true 0 0))
        (Window.deliver (Window.destroy (Window.startListening []))
           [Window.mkKeyEvent "keydown" "KeyW"]
           (inputState (construct (Toy.mkPawn true 0 0)))))
   = trace (update 0) (construct (Toy.mkPawn true 0 0))).
Proof.
  assert (Hw : Window.reachable (Window.startListening []))
    by (apply Window.reach_start, Window.reach_nil).
  split; [exact Hw | exact (destroy_detaches _ _ _ _ Hw)].
Defined.

(** * Further properties of the controller *)

(** X1. A freshly constructed controller holds no key, so an [update]
    before any input calls nothing on the pawn and changes nothing. *)
Theorem fresh_update_inert {P H} `{Player.Player P H} (p : P) (dt : R) :
  trace (update dt) (construct p) = [] /\
  final (update dt) (construct p) = construct p.
Proof. split; reflexivity. Qed.

Lemma reachable_shape w :
  Window.reachable w ->
  w = [] \/
  w = [("keydown"%string, Window.OnKeyDownHandler);
       ("keyup"%string, Window.OnKeyUpHandler)].
Proof.
  induction 1 as [| w _ IH | w _ IH]; [left; reflexivity | |];
    destruct IH as [-> | ->]; cbn; auto.
Qed.

Lemma dispatch_started (w : Window.Listeners)
  (e : Window.KeyEvent) (s : Input.PlayerInputState) :
  Window.reachable w ->
  Window.dispatch (Window.startListening w) e s =
  if ("keydown" =? Window.type e)%string then Input.onKeyDown (Window.code e) s
  else if ("keyup" =? Window.type e)%string then Input.onKeyUp (Window.code e) s
  else s.
Proof.
  intros Hw.
  assert (Hs : Window.startListening w =
               [("keydown"%string, Window.OnKeyDownHandler);
                ("keyup"%string, Window.OnKeyUpHandler)])
    by (destruct (reachable_shape w Hw) as [-> | ->]; reflexivity).
  rewrite Hs. unfold Window.dispatch; cbn [fold_left fst snd Window.runHandler].
  destruct ("keydown" =? Window.type e)%string eqn:Ed.
  - apply String.eqb_eq in Ed. rewrite <- Ed. reflexivity.
  - destruct ("keyup" =? Window.type e)%string; reflexivity.
Qed.



(** X4. One frame calls the pawn in a fixed order: first the movement
    phase (normalise, [isOnGround], [move]) only when there is net
    directional input, then the jump phase ([canJump], asked of the pawn as
    the move left it, then [jump] if eligible) only when jump is held, then
    the shoot phase ([canShoot], asked after any jump, then [shoot]) only
    when shoot is held. *)
Theorem update_call_sequence {P H} `{Player.Player P H}
  (c : PlayerController P) (dt : R) :
  let s := inputState c in
  let p := controlledPawn c in
  let d := accumulate s in
  let v := Vector.normalize (toVector3D d) in
  let sp := if Player.isOnGround p then moveSpeed c
            else (moveSpeed c * airControlModifier c)%R in
  let p1 := if hasInput d then Player.move p v sp dt else p in
  let p2 := if Input.jump s && Player.canJump p1 then Player.jump p1 else p1 in
  trace (update dt) c =
    (if hasInput d then [CNormalize (toVector3D d); CIsOnGround; CMove v sp dt]
     else []) ++
    (if Input.jump s then CCanJump :: (if Player.canJump p1 then [CJump] else [])
     else []) ++
    (if Input.shoot s then CCanShoot :: (if Player.canShoot p2 then [CShoot] else [])
     else []).
Proof.
  destruct c as [p ms am [f b l r j sh]]; cbv zeta.
  unfold_ctl; cbn.
  destruct f, b, l, r, j, sh; cbn; split_pawn; reflexivity.
Qed.

Lemma flag_setFlag (a a' : Input.Action) (v : bool) (s : Input.PlayerInputState) :
  Input.flag a (Input.setFlag a' v s) =
  if Window.Action_eqb a a' then v else Input.flag a s.
Proof. destruct a, a', s; reflexivity. Qed.

Lemma dispatch_effect w e s a :
  Window.reachable w ->
  Input.flag a (Window.dispatch (Window.startListening w) e s) =
  match Window.effect a e with Some v => v | None => Input.flag a s end.
Proof.
  intros Hw. rewrite (dispatch_started w e s Hw). unfold Window.effect.
  destruct ("keydown" =? Window.type e)%string.
  - rewrite onKeyDown_table.
    destruct (Input.boundAction (Window.code e)) as [a'|]; [|reflexivity].
    rewrite flag_setFlag. destruct (Window.Action_eqb a a'); reflexivity.
  - destruct ("keyup" =? Window.type e)%string.
    + rewrite onKeyUp_table.
      destruct (Input.boundAction (Window.code e)) as [a'|]; [|reflexivity].
      rewrite flag_setFlag. destruct (Window.Action_eqb a a'); reflexivity.
    + destruct (Input.boundAction (Window.code e)) as [a'|]; [|reflexivity].
      destruct (Window.Action_eqb a a'); reflexivity.
Qed.

(** X3. While the controller listens, each flag after a sequence of key
    events is decided by the last event of the sequence that concerns its
    action: held after a key-down of any key bound to it, released after a
    key-up of any key bound to it (so releasing Up-arrow clears [forward]
    even if W is still down), and unchanged if no event concerns it. *)
Theorem last_event_decides_flag (w : Window.Listeners)
  (es : list Window.KeyEvent) (s : Input.PlayerInputState) (a : Input.Action) :
  Window.reachable w ->
  Input.flag a (Window.deliver (Window.startListening w) es s) =
  match Window.lastBound a es with Some v => v | None => Input.flag a s end.
Proof.
  intros Hw. revert s.
  induction es as [| e es IH]; intros s; [reflexivity |].
  change (Window.deliver (Window.startListening w) (e :: es) s)
    with (Window.deliver (Window.startListening w) es
            (Window.dispatch (Window.startListening w) e s)).
  rewrite IH. cbn [Window.lastBound].
  destruct (Window.lastBound a es); [reflexivity |].
  apply dispatch_effect, Hw.
Qed.

Lemma last_event_decides_flag_witness :
  Window.reachable [] /\
  Input.flag Input.AForward
    (Window.deliver (Window.startListening [])
       [Window.mkKeyEvent "keydown" "KeyW"; Window.mkKeyEvent "keydown" "ArrowUp";
        Window.mkKeyEvent "keyup" "ArrowUp"] Input.initial) =
  match Window.lastBound Input.AForward
       [Window.mkKeyEvent "keydown" "KeyW"; Window.mkKeyEvent "keydown" "ArrowUp";
        Window.mkKeyEvent "keyup" "ArrowUp"] with
  | Some v => v | None => Input.flag Input.AForward Input.initial end.
Proof.
  assert (Hw : Window.reachable []) by apply Window.reach_nil.
  split; [exact Hw | exact (last_event_decides_flag _ _ _ _ Hw)].
Defined.

Lemma sign_div (a L : R) :
  0 < L -> (0 < a -> 0 < a / L) /\ (a < 0 -> a / L < 0) /\ (a = 0 -> a / L = 0).
Proof.
  intros HL. pose proof (Rinv_0_lt_compat L HL) as Hi. unfold Rdiv.
  split; [|split]; intros Ha; [nra | nra | rewrite Ha; ring].
Qed.

(** X5. Every move command is horizontal ([y = 0]); its [z] component is
    positive when only forward is held, negative when only backward is
    held and zero when both or neither are; likewise [x] for right and
    left. *)
Theorem move_direction_signs {P H} `{Player.Player P H}
  (c : PlayerController P) (dt : R) d sp dt' :
  In (CMove d sp dt') (trace (update dt) c) ->
  let s := inputState c in
  Vector.y d = 0 /\
  (Input.forward s = true -> Input.backward s = false -> 0 < Vector.z d) /\
  (Input.backward s = true -> Input.forward s = false -> Vector.z d < 0) /\
  (Input.forward s = Input.backward s -> Vector.z d = 0) /\
  (Input.right s = true -> Input.left s = false -> 0 < Vector.x d) /\
  (Input.left s = true -> Input.right s = false -> Vector.x d < 0) /\
  (Input.right s = Input.left s -> Vector.x d = 0).
Proof.
  intros Hin. destruct (update_move_inv c dt d sp dt' Hin) as (Hh & -> & _).
  cbv zeta. pose proof (sqr_sum_pos _ Hh) as Hq.
  unfold Vector.normalize; cbv zeta.
  set (L := Vector.length (toVector3D (accumulate (inputState c)))).
  assert (HL : 0 < L) by (apply sqrt_lt_R0, Hq).
  clearbody L. pose proof (fun a => sign_div a L HL) as Hd.
  rewrite accumulate_axes; cbn [toVector3D Vector.x Vector.y Vector.z dx dy dz].
  destruct (inputState c) as [f b l r j sh]; cbn [Input.forward Input.backward
    Input.left Input.right].
  repeat split.
  - apply (proj2 (proj2 (Hd _))); reflexivity.
  - intros -> ->. apply (proj1 (Hd _)), IZR_lt; reflexivity.
  - intros -> ->. apply (proj1 (proj2 (Hd _))), IZR_lt; reflexivity.
  - intros ->. apply (proj2 (proj2 (Hd _))); destruct b; reflexivity.
  - intros -> ->. apply (proj1 (Hd _)), IZR_lt; reflexivity.
  - intros -> ->. apply (proj1 (proj2 (Hd _))), IZR_lt; reflexivity.
  - intros ->. apply (proj2 (proj2 (Hd _))); destruct l; reflexivity.
Qed.

Lemma move_direction_signs_witness :
  In (CMove (Vector.normalize (Vector.mkVector3D 0 0 1)) (5 * (1 / 2)) 0)
     (trace (update 0)
        (setInput (construct (Toy.mkPawn false 0 0))
           (Input.mkInputState true false false false false false))) /\
  (let s := Input.mkInputState true false false false false false in
   let d := Vector.normalize (Vector.mkVector3D 0 0 1) in
   Vector.y d = 0 /\
   (Input.forward s = true -> Input.backward s = false -> 0 < Vector.z d) /\
   (Input.backward s = true -> Input.forward s = false -> Vector.z d < 0) /\
   (Input.forward s = Input.backward s -> Vector.z d = 0) /\
   (Input.right s = true -> Input.left s = false -> 0 < Vector.x d) /\
   (Input.left s = true -> Input.right s = false -> Vector.x d < 0) /\
   (Input.right s = Input.left s -> Vector.x d = 0)).
Proof.
  assert (Hin : In (CMove (Vector.normalize (Vector.mkVector3D 0 0 1)) (5 * (1 / 2)) 0)
     (trace (update 0)
        (setInput (construct (Toy.mkPawn false 0 0))
           (Input.mkInputState true false false false false false))))
    by (right; right; left; reflexivity).
  split; [exact Hin | exact (move_direction_signs _ _ _ _ _ Hin)].
Defined.

Lemma trace_bind {S A B} (m : M S A) (k : A -> M S B) (s : S) :
  trace (bind m k) s = trace m s ++ trace (k (result m s)) (final m s).
Proof.
  unfold trace, result, final, bind.
  destruct (m s) as [[a s1] t1]; cbn. destruct (k a s1) as [[b s2] t2]; reflexivity.
Qed.

Lemma final_bind {S A B} (m : M S A) (k : A -> M S B) (s : S) :
  final (bind m k) s = final (k (result m s)) (final m s).
Proof.
  unfold final, result, bind.
  destruct (m s) as [[a s1] t1]; cbn. destruct (k a s1) as [[b s2] t2]; reflexivity.
Qed.

Lemma count_app p t1 t2 : count p (t1 ++ t2) = (count p t1 + count p t2)%nat.
Proof. unfold count. rewrite filter_app, length_app. reflexivity. Qed.

(** Case split on every answer of the pawn, keeping the answers. *)
Ltac split_pawn_eq :=
  repeat match goal with
  | |- context [Player.shoot ?p] =>
      let E := fresh "E" in destruct (Player.shoot p) eqn:E; cbn
  | |- context [if ?b then _ else _] =>
      let E := fresh "E" in destruct b eqn:E; cbn
  end.

Section JumpGate.

Context {P H : Type} `{Player.Player P H}.

(** The pawn's own jump gate: closed by a jump, left alone by a move and
    by a shot. *)
Hypothesis jump_closes : forall p, Player.canJump (Player.jump p) = false.
Hypothesis move_keeps : forall p d sp dt,
  Player.canJump (Player.move p d sp dt) = Player.canJump p.
Hypothesis shoot_keeps : forall p p' r,
  Player.shoot p = (p', r) -> Player.canJump p' = Player.canJump p.

Lemma update_jump_gate (c : PlayerController P) (dt : R) :
  (count isJump (trace (update dt) c) = 0%nat /\
   Player.canJump (controlledPawn (final (update dt) c)) =
   Player.canJump (controlledPawn c)) \/
  (count isJump (trace (update dt) c) = 1%nat /\
   Player.canJump (controlledPawn c) = true /\
   Player.canJump (controlledPawn (final (update dt) c)) = false).
Proof.
  destruct c as [p ms am [f b l r j sh]]. unfold_ctl; cbn.
  destruct f, b, l, r, j, sh; cbn; split_pawn_eq;
    repeat match goal with E : Player.shoot _ = (_, _) |- _ =>
             apply shoot_keeps in E end;
    rewrite ?jump_closes, ?move_keeps in *;
    first [ left; split; [reflexivity | congruence]
          | right; split; [reflexivity | split; congruence] ].
Qed.

Lemma frames_gate_closed (dt : R) (n : nat) :
  forall c : PlayerController P,
  Player.canJump (controlledPawn c) = false ->
  count isJump (trace (frames dt n) c) = 0%nat /\
  Player.canJump (controlledPawn (final (frames dt n) c)) = false.
Proof.
  induction n as [| n IH]; intros c Hc; [split; [reflexivity | exact Hc] |].
  cbn [frames]. rewrite trace_bind, final_bind, count_app.
  destruct (update_jump_gate c dt) as [[Hz Hk] | [Ho Hk]].
  - rewrite <- Hk in Hc. destruct (IH _ Hc) as [Hn Hf]. rewrite Hz, Hn. split; [reflexivity | exact Hf].
  - destruct Hk as [Ht _]. congruence.
Qed.

(** X6. When the pawn's jump gate closes on a jump (and moves and shots
    leave it alone), any number of consecutive frames jumps at most once,
    however long jump is held: the level-triggered controller relies on
    the pawn's gate. *)
Theorem held_jump_gated_once (dt : R) (n : nat) (c : PlayerController P) :
  (count isJump (trace (frames dt n) c) <= 1)%nat.
Proof.
  revert c. induction n as [| n IH]; intros c; [cbn; lia |].
  cbn [frames]. rewrite trace_bind, count_app.
  destruct (update_jump_gate c dt) as [[Hz _] | (Ho & _ & Hk)].
  - rewrite Hz. apply IH.
  - rewrite Ho. destruct (frames_gate_closed dt n _ Hk) as [Hn _]. rewrite Hn. lia.
Qed.

End JumpGate.

Lemma held_jump_gated_once_witness :
  (forall p : Toy.Pawn, Player.canJump (Player.jump p) = false) /\
  (forall (p : Toy.Pawn) d sp dt,
     Player.canJump (Player.move p d sp dt) = Player.canJump p) /\
  (forall (p p' : Toy.Pawn) (r : option nat),
     Player.shoot p = (p', r) -> Player.canJump p' = Player.canJump p) /\
  (count isJump (trace (frames 0 3)
     (setInput (construct (Toy.mkPawn true 0 0))
        (Input.mkInputState false false false false true true))) <= 1)%nat.
Proof.
  assert (Hj : forall p : Toy.Pawn, Player.canJump (Player.jump p) = false)
    by (intros p; reflexivity).
  assert (Hm : forall (p : Toy.Pawn) d sp dt,
            Player.canJump (Player.move p d sp dt) = Player.canJump p)
    by (intros; reflexivity).
  assert (Hs : forall (p p' : Toy.Pawn) (r : option nat),
            Player.shoot p = (p', r) -> Player.canJump p' = Player.canJump p)
    by (intros p p' r E; injection E as <- _; reflexivity).
  split; [exact Hj | split; [exact Hm | split; [exact Hs |]]].
  exact (held_jump_gated_once Hj Hm Hs 0 3 _).
Defined.

Section Eligible.

Context {P H : Type} `{Player.Player P H}.

Hypothesis always_jump : forall p, Player.canJump p = true.
Hypothesis always_shoot : forall p, Player.canShoot p = true.

Lemma update_eligible (c : PlayerController P) (dt : R) :
  count isJump (trace (update dt) c) =
    (if Input.jump (inputState c) then 1 else 0)%nat /\
  count isShoot (trace (update dt) c) =
    (if Input.shoot (inputState c) then 1 else 0)%nat /\
  inputState (final (update dt) c) = inputState c.
Proof.
  destruct c as [p ms am [f b l r j sh]]. unfold_ctl; cbn.
  destruct f, b, l, r, j, sh; cbn; split_pawn_eq;
    repeat match goal with
    | E : Player.canJump _ = false |- _ => rewrite always_jump in E; discriminate
    | E : Player.canShoot _ = false |- _ => rewrite always_shoot in E; discriminate
    end;
    repeat split.
Qed.

(** X7. With a pawn that is always eligible, holding jump and shoot for
    [n] consecutive frames jumps [n] times and shoots [n] times: the
    controller re-issues both actions every frame and has no cooldown of
    its own. *)
Theorem held_actions_every_frame (dt : R) (n : nat) (c : PlayerController P) :
  Input.jump (inputState c) = true -> Input.shoot (inputState c) = true ->
  count isJump (trace (frames dt n) c) = n /\
  count isShoot (trace (frames dt n) c) = n.
Proof.
  revert c. induction n as [| n IH]; intros c Hj Hs; [split; reflexivity |].
  cbn [frames]. rewrite !trace_bind, !count_app.
  destruct (update_eligible c dt) as (Hcj & Hcs & Hi).
  rewrite Hj in Hcj. rewrite Hs in Hcs.
  destruct (IH (final (update dt) c)) as [Hn1 Hn2]; [rewrite Hi; exact Hj | rewrite Hi; exact Hs |].
  cbv beta in *. rewrite Hcj, Hcs, Hn1, Hn2. split; reflexivity.
Qed.

End Eligible.

Lemma held_actions_every_frame_witness :
  (forall p : Toy.Eager, Player.canJump p = true) /\
  (forall p : Toy.Eager, Player.canShoot p = true) /\
  Input.jump (Input.mkInputState true false false false true true) = true /\
  Input.shoot (Input.mkInputState true false false false true true) = true /\
  (count isJump (trace (frames 0 4)
     (setInput (construct (Toy.mkEager 0 0))
        (Input.mkInputState true false false false true true))) = 4%nat /\
   count isShoot (trace (frames 0 4)
     (setInput (construct (Toy.mkEager 0 0))
        (Input.mkInputState true false false false true true))) = 4%nat).
Proof.
  assert (Hcj : forall p : Toy.Eager, Player.canJump p = true) by reflexivity.
  assert (Hcs : forall p : Toy.Eager, Player.canShoot p = true) by reflexivity.
  assert (Hj : Input.jump (inputState (setInput (construct (Toy.mkEager 0 0))
            (Input.mkInputState true false false false true true))) = true)
    by reflexivity.
  assert (Hs : Input.shoot (inputState (setInput (construct (Toy.mkEager 0 0))
            (Input.mkInputState true false false false true true))) = true)
    by reflexivity.
  split; [exact Hcj | split; [exact Hcs | split; [exact Hj | split; [exact Hs |]]]].
  exact (held_actions_every_frame Hcj Hcs 0 4 _ Hj Hs).
Defined.
